(** * Status reporter service (robot/app.py)

    A shallow embedding of the Flask application in [robot/app.py]: the two
    resolvers ([get_app_version], [get_container_status]), the metrics
    updater ([update_metrics]) and the three route handlers ([index],
    [health], [metrics]), followed by the properties the specification
    states about them.

    Conventions of the embedding:
    - a Python [str] is the list of its code points;
    - [os.environ] is a finite map from names to values;
    - a call that may raise returns a [result]; [try ... except Exception]
      is [try_except];
    - the four module-level metric objects form the record [Registry], which
      the handlers thread through as state;
    - what the outside world answers (the [docker] child process, the
      [stat] of a path) is an argument of the function that asks. *)

From Stdlib Require Import String Ascii.
From stdpp Require Import base option numbers list gmap.

Local Open Scope N_scope.

(** ** Python strings *)

Abbreviation str := (list N) (only parsing).

(** A source literal, as code points. *)
Definition lit (s : string) : str :=
  map N_of_ascii (list_ascii_of_string s).

(** [str.isspace] on one code point (the table of CPython's
    [_PyUnicode_IsWhitespace]). *)
Definition isspace (c : N) : bool :=
  ((9 <=? c) && (c <=? 13))
  || ((28 <=? c) && (c <=? 32))
  || (c =? 133) || (c =? 160) || (c =? 5760)
  || ((8192 <=? c) && (c <=? 8202))
  || (c =? 8232) || (c =? 8233) || (c =? 8239) || (c =? 8287)
  || (c =? 12288).

Fixpoint lstrip (s : str) : str :=
  match s with
  | c :: s' => if isspace c then lstrip s' else s
  | [] => []
  end.

Definition rstrip (s : str) : str := reverse (lstrip (reverse s)).

(** [s.strip()] *)
Definition strip (s : str) : str := rstrip (lstrip s).

(** Truth value of a [str] in a condition. *)
Definition truthy (s : str) : bool :=
  match s with [] => false | _ :: _ => true end.

Section CaseMapping.

(** [str.lower] maps [A]..[Z] to [a]..[z] and leaves the other ASCII code
    points alone; beyond ASCII it follows the Unicode case tables (one code
    point may become several), which are the interpreter's and enter here
    as [lower_unicode]. *)
Variable lower_unicode : N -> list N.

Definition lower_char (c : N) : list N :=
  if c <? 128 then
    (if (65 <=? c) && (c <=? 90) then [c + 32] else [c])
  else lower_unicode c.

Definition lower (s : str) : str := concat (map lower_char s).

End CaseMapping.

(** ** Exceptions *)

(** The classes below [Exception] that the calls of this program can raise. *)
Inductive exn : Type :=
| FileNotFoundError
| PermissionError
| OSError
| TimeoutExpired
| UnicodeDecodeError
| UnicodeEncodeError
| ValueError
| OtherException (name : str).

(** [isinstance(e, OSError)] *)
Definition is_OSError (e : exn) : bool :=
  match e with
  | FileNotFoundError | PermissionError | OSError => true
  | _ => false
  end.

(** [isinstance(e, ValueError)] *)
Definition is_ValueError (e : exn) : bool :=
  match e with
  | UnicodeDecodeError | UnicodeEncodeError | ValueError => true
  | _ => false
  end.

Inductive result (A : Type) : Type :=
| Return (a : A)
| Raise (e : exn).
Arguments Return {A} a.
Arguments Raise {A} e.

#[global] Instance result_ret : MRet result := fun _ a => Return a.
#[global] Instance result_bind : MBind result := fun _ _ f m =>
  match m with
  | Return a => f a
  | Raise e => Raise e
  end.

(** [try: body  except Exception: handler] *)
Definition try_except {A} (body : result A) (handler : exn -> result A)
  : result A :=
  match body with
  | Return a => Return a
  | Raise e => handler e
  end.

(** ** The environment and the outside world *)

(** [os.environ.get(key, default)] *)
Definition environ_get (environ : gmap str str) (key default_ : str) : str :=
  default default_ (environ !! key).

(** What [subprocess.run(..., capture_output=True, text=True, timeout=5)]
    does: it returns a [CompletedProcess] or raises. *)
Inductive run_outcome : Type :=
| Completed (returncode : Z) (stdout : str)
| RunRaised (e : exn).

(** What [os.stat(path)] does: it succeeds, or raises an [OSError] with some
    [errno], or a [ValueError] (a path that cannot be passed to the system). *)
Inductive stat_outcome : Type :=
| StatOk
| StatOSError (errno : Z)
| StatValueError.

(** One round of questions to the outside world: the child process started
    for an argument vector, and the file system looked up at a path. *)
Record Probe : Type := {
  subprocess_run : list str -> run_outcome;
  os_stat : str -> stat_outcome
}.

(** ** Version resolver *)

(** The argument vector of the [docker inspect] call. The format argument
    is [--format={{index .Config.Labels "version"}}]; 34 is the double
    quote. *)
Definition docker_argv (environ : gmap str str) : list str :=
  [ lit "docker"; lit "inspect";
    lit "--format={{index .Config.Labels " ++ [34] ++ lit "version"
      ++ [34] ++ lit "}}";
    environ_get environ (lit "HOSTNAME") (lit "unknown") ].

Definition run_result (o : run_outcome) : result (Z * str) :=
  match o with
  | Completed rc out => Return (rc, out)
  | RunRaised e => Raise e
  end.

(** The body of the [try] block: [Some v] when it executes [return v],
    [None] when it falls out of the [if]. *)
Definition get_app_version_try (environ : gmap str str) (p : Probe)
  : result (option str) :=
  r ← run_result (subprocess_run p (docker_argv environ));
  let '(returncode, stdout) := r in
  if bool_decide (returncode = 0%Z) && truthy (strip stdout)
  then mret (Some (strip stdout))
  else mret None.

Definition get_app_version (environ : gmap str str) (p : Probe)
  : result str :=
  early ← try_except (get_app_version_try environ p) (fun _ => mret None);
  match early with
  | Some v => mret v
  | None => mret (environ_get environ (lit "APP_VERSION") (lit "1.0.0"))
  end.

(** ** Health status resolver *)

(** The exception [os.stat] raises for an [errno]: [ENOENT] is
    [FileNotFoundError], [EPERM] and [EACCES] are [PermissionError]. *)
Definition stat_result (o : stat_outcome) : result unit :=
  match o with
  | StatOk => Return tt
  | StatOSError errno =>
      if bool_decide (errno = 2%Z) then Raise FileNotFoundError
      else if bool_decide (errno = 1%Z) || bool_decide (errno = 13%Z)
           then Raise PermissionError
           else Raise OSError
  | StatValueError => Raise ValueError
  end.

(** [os.path.exists(path)]: [os.stat] under
    [except (OSError, ValueError): return False]. *)
Definition os_path_exists (p : Probe) (path : str) : result bool :=
  try_except
    (_ ← stat_result (os_stat p path); mret true)
    (fun e => if is_OSError e || is_ValueError e then mret false
              else Raise e).

(** [get_container_status] for a given behaviour of the call in its
    condition. *)
Definition container_status_try (check : result bool) : result str :=
  try_except
    (b ← check;
     if b : bool then mret (lit "Healthy")
     else mret (lit "Running (not containerized)"))
    (fun _ => mret (lit "Unknown")).

Definition get_container_status (p : Probe) : result str :=
  container_status_try (os_path_exists p (lit "/.dockerenv")).

(** ** The metrics registry *)

(** The four module-level metrics. A labelled metric holds one child per
    tuple of label values, in the order of its label names; each child holds
    a number (the library keeps it in a double, the model keeps the integer
    it stands for). *)
Record Registry : Type := {
  robot_info : gmap (str * str * str) Z;          (* robot_id, version, status *)
  robot_health_status : gmap str Z;               (* robot_id *)
  robot_requests_total : gmap (str * str) Z;      (* endpoint, robot_id *)
  robot_version : gmap (str * str) Z              (* robot_id, version *)
}.

(** [gauge.labels(k).set(v)]: the child is created when missing. *)
Definition gauge_set `{Countable K} (k : K) (v : Z) (m : gmap K Z)
  : gmap K Z := <[k := v]> m.

(** The value of a counter child; a child starts at 0. *)
Definition counter_value `{Countable K} (m : gmap K Z) (k : K) : Z :=
  default 0%Z (m !! k).

(** [counter.labels(k).inc()] *)
Definition counter_inc `{Countable K} (k : K) (m : gmap K Z) : gmap K Z :=
  <[k := (counter_value m k + 1)%Z]> m.

Definition with_robot_info (f : gmap (str * str * str) Z -> gmap (str * str * str) Z)
  (reg : Registry) : Registry :=
  {| robot_info := f (robot_info reg);
     robot_health_status := robot_health_status reg;
     robot_requests_total := robot_requests_total reg;
     robot_version := robot_version reg |}.

Definition with_robot_health_status (f : gmap str Z -> gmap str Z)
  (reg : Registry) : Registry :=
  {| robot_info := robot_info reg;
     robot_health_status := f (robot_health_status reg);
     robot_requests_total := robot_requests_total reg;
     robot_version := robot_version reg |}.

Definition with_robot_requests_total (f : gmap (str * str) Z -> gmap (str * str) Z)
  (reg : Registry) : Registry :=
  {| robot_info := robot_info reg;
     robot_health_status := robot_health_status reg;
     robot_requests_total := f (robot_requests_total reg);
     robot_version := robot_version reg |}.

Definition with_robot_version (f : gmap (str * str) Z -> gmap (str * str) Z)
  (reg : Registry) : Registry :=
  {| robot_info := robot_info reg;
     robot_health_status := robot_health_status reg;
     robot_requests_total := robot_requests_total reg;
     robot_version := f (robot_version reg) |}.

(** The registry as it is at process start: no child yet. *)
Definition empty_registry : Registry :=
  {| robot_info := ∅; robot_health_status := ∅;
     robot_requests_total := ∅; robot_version := ∅ |}.

(** ** Code that reads and writes the registry *)

(** A computation over the registry: it ends with a value or an exception,
    and leaves a registry behind in both cases. *)
Definition Py (A : Type) : Type := Registry -> result A * Registry.

#[global] Instance Py_ret : MRet Py := fun _ a reg => (Return a, reg).
#[global] Instance Py_bind : MBind Py := fun _ _ f m reg =>
  match m reg with
  | (Return a, reg') => f a reg'
  | (Raise e, reg') => (Raise e, reg')
  end.

Definition lift {A} (r : result A) : Py A := fun reg => (r, reg).
Definition modify (f : Registry -> Registry) : Py unit :=
  fun reg => (Return tt, f reg).
Definition snapshot : Py Registry := fun reg => (Return reg, reg).

(** ** Responses *)

(** What a response carries. Rendering and serialisation are the
    libraries'; the model keeps the call: the template with its context, the
    dictionary Flask turns into JSON, the registry [generate_latest()]
    writes out. *)
Inductive Body : Type :=
| Rendered (template : str) (robot : gmap str str)
| Json (d : gmap str str)
| Exposition (reg : Registry).

Record Response : Type := {
  status_code : Z;
  content_type : str;    (* the [Content-Type] header *)
  body : Body
}.

(** [s.startswith(prefix)] and [s.endswith(suffix)] *)
Definition startswith (s prefix : str) : bool :=
  bool_decide (take (length prefix) s = prefix).

Definition endswith (s suffix : str) : bool :=
  bool_decide (drop (length s - length suffix) s = suffix).

(** Werkzeug's [get_content_type(mimetype, charset)]: the header value for
    a mimetype. Textual types get the charset appended. *)
Definition charset_mimetypes : list str :=
  [ lit "application/ecmascript"; lit "application/javascript";
    lit "application/sql"; lit "application/xml";
    lit "application/xml-dtd";
    lit "application/xml-external-parsed-entity" ].

Definition get_content_type (mimetype charset : str) : str :=
  if startswith mimetype (lit "text/")
     || existsb (fun m => bool_decide (mimetype = m)) charset_mimetypes
     || endswith mimetype (lit "+xml")
  then mimetype ++ lit "; charset=" ++ charset
  else mimetype.

(** [Response(data, mimetype=m)]: the status defaults to 200, and the
    header is made from the mimetype with the response's charset. *)
Definition Response_ (data : Body) (m : str) : Response :=
  {| status_code := 200;
     content_type := get_content_type m (lit "utf-8");
     body := data |}.

(** A view that returns a [str]: Flask wraps it in a [Response] with the
    default mimetype. *)
Definition response_of_str (b : Body) : Response :=
  Response_ b (lit "text/html").

(** A view that returns [(dict, status)]: Flask makes the JSON response and
    sets the status. *)
Definition response_of_dict (d : gmap str str) (status : Z) : Response :=
  {| status_code := status;
     content_type := get_content_type (lit "application/json") (lit "utf-8");
     body := Json d |}.

(** The status Flask answers with for what a view did (debug off): the
    status of the response the view returned, or 500 when the view raised. *)
Definition http_status (outcome : result Response) : Z :=
  match outcome with
  | Return r => status_code r
  | Raise _ => 500%Z
  end.

(** ** Serialising the registry *)

(** [s.encode('utf-8')] works unless [s] holds a surrogate code point
    (U+D800 to U+DFFF); [os.environ] uses lone surrogates for the bytes of a
    value that are not valid UTF-8. *)
Definition encodable_char (c : N) : bool :=
  negb ((55296 <=? c) && (c <=? 57343)).

Definition encodable (s : str) : bool := forallb encodable_char s.

(** Every label value of every child can be encoded. *)
Definition registry_encodable (reg : Registry) : Prop :=
  map_Forall (fun k (_ : Z) => encodable k.1.1 = true /\ encodable k.1.2 = true
                               /\ encodable k.2 = true) (robot_info reg) /\
  map_Forall (fun k (_ : Z) => encodable k = true) (robot_health_status reg) /\
  map_Forall (fun k (_ : Z) => encodable k.1 = true /\ encodable k.2 = true)
    (robot_requests_total reg) /\
  map_Forall (fun k (_ : Z) => encodable k.1 = true /\ encodable k.2 = true)
    (robot_version reg).

(** [generate_latest()]: the library writes every child of every metric
    as a line of text and encodes the text as UTF-8, which raises when a
    label value cannot be encoded. The text itself is the library's; the
    model keeps the registry it is written from. *)
Definition generate_latest (reg : Registry) : result Body :=
  if decide (registry_encodable reg) then Return (Exposition reg)
  else Raise UnicodeEncodeError.

(** Modelled from the spec: the value of [CONTENT_TYPE_LATEST], a constant
    of the [prometheus_client] package that the source imports; the spec gives
    the content type of the metrics response as [text/plain; version=0.0.4]. *)
Definition CONTENT_TYPE_LATEST : str := lit "text/plain; version=0.0.4".

(** ** Metrics updater and route handlers *)

Section Handlers.

Variable lower_unicode : N -> list N.

Definition robot_id_of (environ : gmap str str) : str :=
  environ_get environ (lit "ROBOT_ID") (lit "1").

Definition update_metrics (environ : gmap str str) (p : Probe) : Py unit :=
  let robot_id := robot_id_of environ in
  version ← lift (get_app_version environ p);
  status ← lift (get_container_status p);
  _ ← modify (with_robot_info (gauge_set (robot_id, version, status) 1%Z));
  _ ← modify (with_robot_version (gauge_set (robot_id, version) 1%Z));
  let health_value :=
    if bool_decide (lower lower_unicode status = lit "healthy")
    then 1%Z else 0%Z in
  modify (with_robot_health_status (gauge_set robot_id health_value)).

(** [index] asks the outside world twice: for the page ([p1]) and again
    inside [update_metrics] ([p2]). *)
Definition index (environ : gmap str str) (p1 p2 : Probe) : Py Response :=
  let robot_id := robot_id_of environ in
  _ ← modify (with_robot_requests_total
                (counter_inc (lit "index", robot_id)));
  version ← lift (get_app_version environ p1);
  status ← lift (get_container_status p1);
  let robot_data : gmap str str :=
    <[lit "id" := robot_id]>
      (<[lit "version" := version]> {[ lit "status" := status ]}) in
  _ ← update_metrics environ p2;
  mret (response_of_str (Rendered (lit "index.html") robot_data)).

Definition health (environ : gmap str str) (p : Probe) : Py Response :=
  let robot_id := robot_id_of environ in
  _ ← modify (with_robot_requests_total
                (counter_inc (lit "health", robot_id)));
  _ ← update_metrics environ p;
  mret (response_of_dict {[ lit "status" := lit "healthy" ]} 200).

Definition metrics (environ : gmap str str) (p : Probe) : Py Response :=
  let robot_id := robot_id_of environ in
  _ ← modify (with_robot_requests_total
                (counter_inc (lit "metrics", robot_id)));
  _ ← update_metrics environ p;
  reg ← snapshot;
  data ← lift (generate_latest reg);
  mret (Response_ data CONTENT_TYPE_LATEST).

End Handlers.

(** ** The routes *)

(** A request that the routing table (the [@app.route] decorators) sends to
    one of the three views, together with what the outside world answers
    while that view runs. *)
Inductive request : Type :=
| GET_index (p1 p2 : Probe)     (* rule [/] *)
| GET_health (p : Probe)        (* rule [/health] *)
| GET_metrics (p : Probe).      (* rule [/metrics] *)

(** The endpoint label under which the view counts its requests. *)
Definition endpoint (r : request) : str :=
  match r with
  | GET_index _ _ => lit "index"
  | GET_health _ => lit "health"
  | GET_metrics _ => lit "metrics"
  end.

Section Serving.

Variable lower_unicode : N -> list N.

Definition dispatch (environ : gmap str str) (r : request) : Py Response :=
  match r with
  | GET_index p1 p2 => index lower_unicode environ p1 p2
  | GET_health p => health lower_unicode environ p
  | GET_metrics p => metrics lower_unicode environ p
  end.

(** One process serving requests one after the other: what each request is
    answered with, and the registry at the end. *)
Fixpoint serve (environ : gmap str str) (rs : list request) (reg : Registry)
  : list (result Response) * Registry :=
  match rs with
  | [] => ([], reg)
  | r :: rs' =>
      let '(answer, reg') := dispatch environ r reg in
      let '(answers, reg'') := serve environ rs' reg' in
      (answer :: answers, reg'')
  end.

End Serving.

(** * Vocabulary of the properties *)

Definition whitespace (s : str) : Prop := Forall (fun c => isspace c = true) s.

(** The value [get_app_version] falls back to. *)
Definition version_fallback (environ : gmap str str) : str :=
  match environ !! lit "APP_VERSION" with
  | Some v => v
  | None => lit "1.0.0"
  end.

(** The tool invocation fails: the call raised (tool absent, timeout, ...),
    or the exit code is not zero, or the output is empty or all whitespace. *)
Definition invocation_fails (o : run_outcome) : Prop :=
  match o with
  | RunRaised _ => True
  | Completed returncode stdout => returncode <> 0%Z \/ whitespace stdout
  end.

(** The marker file is there: [os.stat] of it succeeds. *)
Definition marker_present (p : Probe) : Prop :=
  os_stat p (lit "/.dockerenv") = StatOk.

(** The health value [update_metrics] computes from a status. *)
Definition health_value (lower_unicode : N -> list N) (status : str) : Z :=
  if bool_decide (lower lower_unicode status = lit "healthy")
  then 1%Z else 0%Z.

(** Between [before] and [after] the counter child [k] went up by one and
    no other child of the counter changed. *)
Definition incremented_once (k : str * str)
    (before after : gmap (str * str) Z) : Prop :=
  counter_value after k = (counter_value before k + 1)%Z /\
  forall k', k' <> k -> after !! k' = before !! k'.

(** The robot id a response carries: the [id] of the data handed to the
    template, or the [id] entry of a JSON body. *)
Definition reported_id (r : Response) : option str :=
  match body r with
  | Rendered _ robot => robot !! lit "id"
  | Json d => d !! lit "id"
  | Exposition _ => None
  end.

(** How many of the requests [rs] go to the endpoint [ep]. *)
Definition requests_to (ep : str) (rs : list request) : nat :=
  length (filter (fun r => endpoint r = ep) rs).

(** The values a registry may hold: info and version children are 1, health
    children are 0 or 1, request counter children are at least 1. *)
Definition registry_wf (reg : Registry) : Prop :=
  map_Forall (fun _ v => v = 1%Z) (robot_info reg) /\
  map_Forall (fun _ v => v = 1%Z) (robot_version reg) /\
  map_Forall (fun _ v => v = 0%Z \/ v = 1%Z) (robot_health_status reg) /\
  map_Forall (fun _ v => (1 <= v)%Z) (robot_requests_total reg).

(** The round of look-ups a request's [update_metrics] call makes. *)
Definition metrics_probe (r : request) : Probe :=
  match r with
  | GET_index _ p2 => p2
  | GET_health p => p
  | GET_metrics p => p
  end.

(** Concrete inputs. *)

(** A case table that maps every code point beyond ASCII to itself. *)
Definition caseless : N -> list N := fun c => [c].

Definition environ_robot7 : gmap str str :=
  <[lit "ROBOT_ID" := lit "7"]> {[ lit "APP_VERSION" := lit "2.5.0" ]}.

(** Inside a container whose image carries a version label: the tool prints
    [ 1.2.3] and a newline, the marker file exists. *)
Definition probe_container : Probe :=
  {| subprocess_run := fun _ => Completed 0 (lit " 1.2.3" ++ [10]);
     os_stat := fun _ => StatOk |}.

(** On a host without the tool and without the marker file. *)
Definition probe_host : Probe :=
  {| subprocess_run := fun _ => RunRaised FileNotFoundError;
     os_stat := fun _ => StatOSError 2 |}.

(** [APP_VERSION] was set to the single byte 0x80, which is not valid
    UTF-8: [os.environ] holds it as the lone surrogate U+DC80. *)
Definition environ_undecodable : gmap str str :=
  {[ lit "APP_VERSION" := [56448] ]}.

(** The tool exits with code 0 and prints a blank line. *)
Definition probe_blank : Probe :=
  {| subprocess_run := fun _ => Completed 0 (lit "  " ++ [10]);
     os_stat := fun _ => StatOk |}.

(** * Properties *)

(** ** Stripping *)

Lemma lstrip_split (s : str) :
  exists pre, s = pre ++ lstrip s /\ whitespace pre.
Proof.
  induction s as [|c s IH]; simpl.
  - exists []. split; [reflexivity | constructor].
  - destruct (isspace c) eqn:Hc.
    + destruct IH as (pre & Hs & Hpre).
      exists (c :: pre). split.
      * simpl. congruence.
      * constructor; assumption.
    + exists []. split; [reflexivity | constructor].
Qed.

Lemma lstrip_head (s : str) (c : N) :
  head (lstrip s) = Some c -> isspace c = false.
Proof.
  induction s as [|d s IH]; simpl; [discriminate |].
  destruct (isspace d) eqn:Hd; [exact IH |].
  simpl. intros [= <-]. exact Hd.
Qed.

Lemma lstrip_nil_iff (s : str) : lstrip s = [] <-> whitespace s.
Proof.
  split.
  - intros H. destruct (lstrip_split s) as (pre & Hs & Hpre).
    rewrite H, app_nil_r in Hs. subst s. exact Hpre.
  - induction 1 as [|c s Hc _ IH]; simpl; [reflexivity |].
    rewrite Hc. exact IH.
Qed.

Lemma whitespace_reverse (s : str) : whitespace s -> whitespace (reverse s).
Proof. unfold whitespace. rewrite Forall_reverse. trivial. Qed.

Lemma strip_split (s : str) :
  exists pre post,
    s = pre ++ strip s ++ post /\ whitespace pre /\ whitespace post.
Proof.
  destruct (lstrip_split s) as (pre & Hs & Hpre).
  destruct (lstrip_split (reverse (lstrip s))) as (tl & Ht & Htl).
  exists pre, (reverse tl). repeat split.
  - unfold strip, rstrip. rewrite <- reverse_app, <- Ht, reverse_involutive.
    exact Hs.
  - exact Hpre.
  - apply whitespace_reverse. exact Htl.
Qed.

Lemma strip_head (s : str) (c : N) :
  head (strip s) = Some c -> isspace c = false.
Proof.
  unfold strip, rstrip.
  destruct (lstrip_split (reverse (lstrip s))) as (tl & Ht & _).
  apply (f_equal reverse) in Ht.
  rewrite reverse_involutive, reverse_app in Ht.
  intros Hc. apply (lstrip_head s). rewrite Ht.
  destruct (reverse (lstrip (reverse (lstrip s)))); [discriminate | exact Hc].
Qed.

Lemma strip_last (s : str) (c : N) :
  last (strip s) = Some c -> isspace c = false.
Proof.
  unfold strip, rstrip. rewrite last_reverse. apply lstrip_head.
Qed.

Lemma strip_nil_iff (s : str) : strip s = [] <-> whitespace s.
Proof.
  split.
  - intros H. destruct (strip_split s) as (pre & post & Hs & Hpre & Hpost).
    rewrite H in Hs. simpl in Hs. subst s.
    apply Forall_app. split; assumption.
  - intros H. unfold strip, rstrip.
    apply lstrip_nil_iff in H. rewrite H. reflexivity.
Qed.

Lemma truthy_true (s : str) : truthy s = true <-> s <> [].
Proof. destruct s; simpl; split; congruence. Qed.

(** ** The version resolver *)

Lemma get_app_version_cases (environ : gmap str str) (p : Probe) :
  get_app_version environ p =
  Return (match subprocess_run p (docker_argv environ) with
          | Completed returncode stdout =>
              if bool_decide (returncode = 0%Z) && truthy (strip stdout)
              then strip stdout
              else version_fallback environ
          | RunRaised _ => version_fallback environ
          end).
Proof.
  unfold get_app_version, get_app_version_try, version_fallback, environ_get.
  destruct (subprocess_run p (docker_argv environ)) as [rc out | e]; simpl.
  - destruct (bool_decide (rc = 0%Z) && truthy (strip out)); simpl;
      [reflexivity |].
    destruct (environ !! lit "APP_VERSION"); reflexivity.
  - destruct (environ !! lit "APP_VERSION"); reflexivity.
Qed.

(** C1: when the invocation of the inspection tool fails (the call raises,
    as for an absent tool or a timeout; a non-zero exit code; empty or
    whitespace-only output), [get_app_version] returns normally, with the
    value of [APP_VERSION] when the variable is set and ["1.0.0"] when it is
    not. *)
Theorem get_app_version_fallback (environ : gmap str str) (p : Probe) :
  invocation_fails (subprocess_run p (docker_argv environ)) ->
  get_app_version environ p =
  Return (match environ !! lit "APP_VERSION" with
          | Some v => v
          | None => lit "1.0.0"
          end).
Proof.
  intros Hfail. rewrite get_app_version_cases.
  destruct (subprocess_run p (docker_argv environ)) as [rc out | e];
    [| reflexivity].
  destruct Hfail as [Hrc | Hws].
  - rewrite bool_decide_eq_false_2 by exact Hrc. reflexivity.
  - apply strip_nil_iff in Hws. rewrite Hws, andb_false_r. reflexivity.
Qed.

(** C6: when the invocation exits with code 0 and its output is not empty
    once stripped, [get_app_version] returns the stripped output, whatever
    the environment holds: the output is that value between two runs of
    whitespace, and the value neither starts nor ends with whitespace. *)
Theorem get_app_version_tool_output
    (environ : gmap str str) (p : Probe) (stdout : str) :
  subprocess_run p (docker_argv environ) = Completed 0 stdout ->
  strip stdout <> [] ->
  get_app_version environ p = Return (strip stdout) /\
  (exists pre post,
      stdout = pre ++ strip stdout ++ post /\
      whitespace pre /\ whitespace post) /\
  (forall c, head (strip stdout) = Some c -> isspace c = false) /\
  (forall c, last (strip stdout) = Some c -> isspace c = false).
Proof.
  intros Hrun Hne. repeat split.
  - rewrite get_app_version_cases, Hrun.
    apply truthy_true in Hne. rewrite Hne. reflexivity.
  - apply strip_split.
  - apply strip_head.
  - apply strip_last.
Qed.

(** ** The health status resolver *)

Lemma os_path_exists_cases (p : Probe) (path : str) :
  os_path_exists p path =
  Return (match os_stat p path with StatOk => true | _ => false end).
Proof.
  unfold os_path_exists, stat_result.
  destruct (os_stat p path) as [| errno |]; simpl; try reflexivity.
  destruct (bool_decide (errno = 2%Z)); simpl; [reflexivity |].
  destruct (bool_decide (errno = 1%Z) || bool_decide (errno = 13%Z));
    reflexivity.
Qed.

Lemma get_container_status_cases (p : Probe) :
  get_container_status p =
  Return (match os_stat p (lit "/.dockerenv") with
          | StatOk => lit "Healthy"
          | _ => lit "Running (not containerized)"
          end).
Proof.
  unfold get_container_status. rewrite os_path_exists_cases.
  destruct (os_stat p (lit "/.dockerenv")); reflexivity.
Qed.


(** C10: whatever [os.stat] does with [/.dockerenv], the existence test
    returns a boolean without raising, [get_container_status] returns
    ["Healthy"] or ["Running (not containerized)"], and it never returns
    ["Unknown"]. *)
Theorem get_container_status_never_unknown (p : Probe) :
  (exists b, os_path_exists p (lit "/.dockerenv") = Return b) /\
  (get_container_status p = Return (lit "Healthy") \/
   get_container_status p = Return (lit "Running (not containerized)")) /\
  get_container_status p <> Return (lit "Unknown").
Proof.
  rewrite get_container_status_cases, os_path_exists_cases.
  split; [eexists; reflexivity |].
  destruct (os_stat p (lit "/.dockerenv")); split;
    solve [ auto | intros [= H]; vm_compute in H; discriminate H ].
Qed.

(** ** The metrics updater *)

Section HandlerProperties.

Variable lower_unicode : N -> list N.

Lemma lower_Healthy : lower lower_unicode (lit "Healthy") = lit "healthy".
Proof. reflexivity. Qed.

Lemma lower_Running :
  lower lower_unicode (lit "Running (not containerized)") <> lit "healthy".
Proof. intros H. vm_compute in H. discriminate H. Qed.

Lemma update_metrics_cases
    (environ : gmap str str) (p : Probe) (reg : Registry) :
  exists version status,
    get_app_version environ p = Return version /\
    get_container_status p = Return status /\
    update_metrics lower_unicode environ p reg =
    (Return tt,
     {| robot_info :=
          <[(robot_id_of environ, version, status) := 1%Z]> (robot_info reg);
        robot_health_status :=
          <[robot_id_of environ := health_value lower_unicode status]>
            (robot_health_status reg);
        robot_requests_total := robot_requests_total reg;
        robot_version :=
          <[(robot_id_of environ, version) := 1%Z]> (robot_version reg) |}).
Proof.
  pose proof (get_app_version_cases environ p) as Hv.
  pose proof (get_container_status_cases p) as Hs.
  eexists _, _. split; [exact Hv |]. split; [exact Hs |].
  unfold update_metrics, mbind, Py_bind, lift, modify.
  rewrite Hv, Hs. reflexivity.
Qed.

(** C2: [update_metrics] returns normally after setting three series: the
    info child labelled (id, version, status) to 1, the version child
    labelled (id, version) to 1, and the health child labelled by the id to 1
    when the lower-cased status is ["healthy"] and to 0 otherwise, for the
    version and status the two resolvers return. It leaves the request
    counter as it was: counting requests is done by the handlers. *)
Theorem update_metrics_sets_three_series
    (environ : gmap str str) (p : Probe) (reg : Registry) :
  exists version status,
    get_app_version environ p = Return version /\
    get_container_status p = Return status /\
    update_metrics lower_unicode environ p reg =
    (Return tt,
     {| robot_info :=
          <[(robot_id_of environ, version, status) := 1%Z]> (robot_info reg);
        robot_health_status :=
          <[robot_id_of environ :=
              if bool_decide (lower lower_unicode status = lit "healthy")
              then 1%Z else 0%Z]>
            (robot_health_status reg);
        robot_requests_total := robot_requests_total reg;
        robot_version :=
          <[(robot_id_of environ, version) := 1%Z]> (robot_version reg) |}).
Proof. apply update_metrics_cases. Qed.

(** ** The route handlers *)

Lemma counter_inc_once (k : str * str) (m : gmap (str * str) Z) :
  incremented_once k m (counter_inc k m).
Proof.
  unfold incremented_once, counter_inc. split.
  - unfold counter_value at 1. rewrite lookup_insert_eq. reflexivity.
  - intros k' Hk'. apply lookup_insert_ne. congruence.
Qed.

(** A handler's prologue followed by [update_metrics]. *)
Lemma counted_update_metrics
    (environ : gmap str str) (p : Probe) (reg : Registry) (endpoint : str) :
  exists version status reg',
    get_app_version environ p = Return version /\
    get_container_status p = Return status /\
    update_metrics lower_unicode environ p
      (with_robot_requests_total
         (counter_inc (endpoint, robot_id_of environ)) reg)
    = (Return tt, reg') /\
    robot_requests_total reg' =
      counter_inc (endpoint, robot_id_of environ) (robot_requests_total reg) /\
    robot_health_status reg' !! robot_id_of environ =
      Some (health_value lower_unicode status).
Proof.
  destruct (update_metrics_cases environ p
              (with_robot_requests_total
                 (counter_inc (endpoint, robot_id_of environ)) reg))
    as (version & status & Hv & Hs & Hu).
  eexists version, status, _.
  split; [exact Hv |]. split; [exact Hs |]. split; [exact Hu |].
  split; [reflexivity |]. simpl. apply lookup_insert_eq.
Qed.

Lemma index_cases (environ : gmap str str) (p1 p2 : Probe) (reg : Registry) :
  exists version status reg',
    get_app_version environ p1 = Return version /\
    get_container_status p1 = Return status /\
    index lower_unicode environ p1 p2 reg =
    (Return (response_of_str
               (Rendered (lit "index.html")
                  (<[lit "id" := robot_id_of environ]>
                     (<[lit "version" := version]>
                        {[ lit "status" := status ]})))),
     reg') /\
    robot_requests_total reg' =
      counter_inc (lit "index", robot_id_of environ)
        (robot_requests_total reg).
Proof.
  destruct (counted_update_metrics environ p2 reg (lit "index"))
    as (v2 & s2 & reg' & _ & _ & Hu & Hreq & _).
  pose proof (get_app_version_cases environ p1) as Hv.
  pose proof (get_container_status_cases p1) as Hs.
  eexists _, _, reg'. split; [exact Hv |]. split; [exact Hs |].
  split; [| exact Hreq].
  unfold index, mbind, Py_bind, modify, lift. cbv beta iota.
  rewrite Hv, Hs, Hu. reflexivity.
Qed.

Lemma health_cases (environ : gmap str str) (p : Probe) (reg : Registry) :
  exists reg',
    health lower_unicode environ p reg =
    (Return (response_of_dict {[ lit "status" := lit "healthy" ]} 200),
     reg') /\
    robot_requests_total reg' =
      counter_inc (lit "health", robot_id_of environ)
        (robot_requests_total reg) /\
    is_Some (robot_health_status reg' !! robot_id_of environ).
Proof.
  destruct (counted_update_metrics environ p reg (lit "health"))
    as (v & s & reg' & _ & _ & Hu & Hreq & Hh).
  exists reg'. split; [| split; [exact Hreq | eauto]].
  unfold health, mbind, Py_bind, modify. cbv beta iota.
  rewrite Hu. reflexivity.
Qed.

Lemma metrics_cases (environ : gmap str str) (p : Probe) (reg : Registry) :
  exists reg',
    metrics lower_unicode environ p reg =
    (if decide (registry_encodable reg')
     then Return (Response_ (Exposition reg') CONTENT_TYPE_LATEST)
     else Raise UnicodeEncodeError,
     reg') /\
    robot_requests_total reg' =
      counter_inc (lit "metrics", robot_id_of environ)
        (robot_requests_total reg).
Proof.
  destruct (counted_update_metrics environ p reg (lit "metrics"))
    as (v & s & reg' & _ & _ & Hu & Hreq & _).
  exists reg'. split; [| exact Hreq].
  unfold metrics, mbind, Py_bind, modify, snapshot, lift, generate_latest.
  cbv beta iota. rewrite Hu.
  destruct (decide (registry_encodable reg')); reflexivity.
Qed.

(** C3: one request to [/], [/health] or [/metrics] raises the request
    counter child labelled with that endpoint's name ([index], [health],
    [metrics]) and the current robot id by exactly one, and changes no other
    child of the request counter. *)
Theorem request_counted_exactly_once
    (environ : gmap str str) (p1 p2 : Probe) (reg : Registry) :
  incremented_once (lit "index", robot_id_of environ)
    (robot_requests_total reg)
    (robot_requests_total (snd (index lower_unicode environ p1 p2 reg))) /\
  incremented_once (lit "health", robot_id_of environ)
    (robot_requests_total reg)
    (robot_requests_total (snd (health lower_unicode environ p1 reg))) /\
  incremented_once (lit "metrics", robot_id_of environ)
    (robot_requests_total reg)
    (robot_requests_total (snd (metrics lower_unicode environ p1 reg))).
Proof.
  destruct (index_cases environ p1 p2 reg)
    as (v & s & ri & _ & _ & Hi & Hri).
  destruct (health_cases environ p1 reg) as (rh & Hh & Hrh & _).
  destruct (metrics_cases environ p1 reg) as (rm & Hm & Hrm).
  rewrite Hi, Hh, Hm. cbn [snd]. rewrite Hri, Hrh, Hrm.
  repeat split; apply counter_inc_once.
Qed.

(** C4: when the marker file [/.dockerenv] is present,
    [get_container_status] returns ["Healthy"] and [update_metrics] sets the
    health series of the robot id to 1; when it is not, the status returned
    differs from ["Healthy"] and the health series is set to 0. *)
Theorem marker_decides_health
    (environ : gmap str str) (p : Probe) (reg : Registry) :
  (marker_present p ->
     get_container_status p = Return (lit "Healthy") /\
     robot_health_status (snd (update_metrics lower_unicode environ p reg))
       !! robot_id_of environ = Some 1%Z) /\
  (~ marker_present p ->
     exists status,
       get_container_status p = Return status /\
       status <> lit "Healthy" /\
       robot_health_status (snd (update_metrics lower_unicode environ p reg))
         !! robot_id_of environ = Some 0%Z).
Proof.
  destruct (update_metrics_cases environ p reg)
    as (v & s & _ & Hs & Hu).
  rewrite Hu. cbn [snd robot_health_status]. rewrite lookup_insert_eq.
  rewrite get_container_status_cases in Hs |- *.
  injection Hs as <-. unfold marker_present, health_value.
  destruct (os_stat p (lit "/.dockerenv")) as [| errno |]; split; intros Hm;
    try discriminate Hm; try (contradiction Hm; reflexivity).
  - split; [reflexivity |].
    rewrite bool_decide_eq_true_2 by apply lower_Healthy. reflexivity.
  - eexists. split; [reflexivity |]. split.
    + intros H. vm_compute in H. discriminate H.
    + rewrite bool_decide_eq_false_2 by apply lower_Running. reflexivity.
  - eexists. split; [reflexivity |]. split.
    + intros H. vm_compute in H. discriminate H.
    + rewrite bool_decide_eq_false_2 by apply lower_Running. reflexivity.
Qed.


(** C7: a request to [/health] is answered with status 200 and the body
    [{"status": "healthy"}], whatever the environment, the tool and the
    marker file. *)
Theorem health_response_fixed
    (environ : gmap str str) (p : Probe) (reg : Registry) :
  fst (health lower_unicode environ p reg) =
  Return {| status_code := 200;
            content_type := lit "application/json";
            body := Json {[ lit "status" := lit "healthy" ]} |}.
Proof.
  destruct (health_cases environ p reg) as (reg' & -> & _). reflexivity.
Qed.


(** C9: the robot id is the value of [ROBOT_ID], or ["1"] when the variable
    is not set. The data the index endpoint renders carries that id. The
    response of the health endpoint carries no id; that id labels the
    request counter child the endpoint increments. *)
Theorem robot_id_from_environment
    (environ : gmap str str) (p1 p2 : Probe) (reg : Registry) :
  robot_id_of environ =
    match environ !! lit "ROBOT_ID" with Some v => v | None => lit "1" end /\
  (exists r reg',
      index lower_unicode environ p1 p2 reg = (Return r, reg') /\
      reported_id r = Some (robot_id_of environ)) /\
  (exists r reg',
      health lower_unicode environ p1 reg = (Return r, reg') /\
      reported_id r = None /\
      robot_requests_total reg' =
        counter_inc (lit "health", robot_id_of environ)
          (robot_requests_total reg)).
Proof.
  split; [reflexivity |].
  destruct (index_cases environ p1 p2 reg) as (v & s & ri & _ & _ & Hi & _).
  destruct (health_cases environ p1 reg) as (rh & Hh & Hreq & _).
  split.
  - eexists _, _. split; [exact Hi |].
    unfold reported_id. simpl. apply lookup_insert_eq.
  - eexists _, _. split; [exact Hh |]. split; [| exact Hreq].
    unfold reported_id. simpl. apply lookup_singleton_ne.
    intros H. vm_compute in H. discriminate H.
Qed.

End HandlerProperties.

(** ** The properties at concrete inputs *)

(** C1 at two inputs: blank tool output with [APP_VERSION] set to [2.5.0],
    and an absent tool with an empty environment. *)
Lemma get_app_version_fallback_witness :
  (invocation_fails (subprocess_run probe_blank (docker_argv environ_robot7))
   /\ get_app_version environ_robot7 probe_blank = Return (lit "2.5.0")) /\
  (invocation_fails (subprocess_run probe_host (docker_argv ∅))
   /\ get_app_version ∅ probe_host = Return (lit "1.0.0")).
Proof.
  assert (Hblank : invocation_fails
                     (subprocess_run probe_blank (docker_argv environ_robot7)))
    by (right; repeat constructor).
  assert (Hhost : invocation_fails (subprocess_run probe_host (docker_argv ∅)))
    by exact I.
  split; split.
  - exact Hblank.
  - exact (get_app_version_fallback environ_robot7 probe_blank Hblank).
  - exact Hhost.
  - exact (get_app_version_fallback ∅ probe_host Hhost).
Defined.

(** C6 where the tool prints [ 1.2.3] and a newline. *)
Lemma get_app_version_tool_output_witness :
  subprocess_run probe_container (docker_argv environ_robot7)
    = Completed 0 (lit " 1.2.3" ++ [10]) /\
  strip (lit " 1.2.3" ++ [10]) <> [] /\
  get_app_version environ_robot7 probe_container = Return (lit "1.2.3").
Proof.
  assert (Hne : strip (lit " 1.2.3" ++ [10]) <> [])
    by (vm_compute; discriminate).
  split; [reflexivity |]. split; [exact Hne |].
  exact (proj1 (get_app_version_tool_output environ_robot7 probe_container
                  (lit " 1.2.3" ++ [10]) eq_refl Hne)).
Defined.

(** C4 with the marker file present and with it absent. *)
Lemma marker_decides_health_witness :
  (marker_present probe_container /\
   robot_health_status
     (snd (update_metrics caseless environ_robot7 probe_container
             empty_registry)) !! lit "7" = Some 1%Z) /\
  (~ marker_present probe_host /\
   robot_health_status
     (snd (update_metrics caseless environ_robot7 probe_host
             empty_registry)) !! lit "7" = Some 0%Z).
Proof.
  assert (Hin : marker_present probe_container) by reflexivity.
  assert (Hout : ~ marker_present probe_host) by (intros H; discriminate H).
  split; split.
  - exact Hin.
  - exact (proj2 (proj1 (marker_decides_health caseless environ_robot7
                           probe_container empty_registry) Hin)).
  - exact Hout.
  - destruct (proj2 (marker_decides_health caseless environ_robot7
                       probe_host empty_registry) Hout)
      as (status & _ & _ & H).
    exact H.
Defined.

(** C2 as the specification words it fails: [update_metrics] increments no
    child of the request counter, whatever the endpoint name. *)
Lemma update_metrics_does_not_count :
  ~ (exists endpoint : str,
        counter_value
          (robot_requests_total
             (snd (update_metrics caseless environ_robot7 probe_container
                     empty_registry)))
          (endpoint, lit "7")
        = (counter_value (robot_requests_total empty_registry)
             (endpoint, lit "7") + 1)%Z).
Proof.
  intros (endpoint & H).
  destruct (update_metrics_cases caseless environ_robot7 probe_container
              empty_registry) as (v & s & _ & _ & Hu).
  rewrite Hu in H. cbn [snd robot_requests_total] in H.
  unfold counter_value, empty_registry in H. cbn [robot_requests_total] in H.
  rewrite lookup_empty in H. discriminate H.
Qed.

(** C9 as the specification words it fails: with [ROBOT_ID] set to [7], the
    response of the health endpoint does not carry that id. *)
Lemma health_reports_no_robot_id :
  ~ (exists r reg',
        health caseless environ_robot7 probe_container empty_registry
          = (Return r, reg') /\
        reported_id r = Some (robot_id_of environ_robot7)).
Proof.
  intros (r & reg' & H & Hid).
  destruct (health_cases caseless environ_robot7 probe_container
              empty_registry) as (reg'' & Hh & _).
  rewrite Hh in H. injection H as <- _.
  vm_compute in Hid. discriminate Hid.
Qed.

(** ** Sequences of requests *)

Section ServingProperties.

Variable lower_unicode : N -> list N.

(** What one request does to the registry. *)
Lemma dispatch_cases (environ : gmap str str) (r : request) (reg : Registry) :
  exists (answer : result Response) version status,
    get_app_version environ (metrics_probe r) = Return version /\
    get_container_status (metrics_probe r) = Return status /\
    dispatch lower_unicode environ r reg =
    (answer,
     {| robot_info :=
          <[(robot_id_of environ, version, status) := 1%Z]> (robot_info reg);
        robot_health_status :=
          <[robot_id_of environ := health_value lower_unicode status]>
            (robot_health_status reg);
        robot_requests_total :=
          counter_inc (endpoint r, robot_id_of environ)
            (robot_requests_total reg);
        robot_version :=
          <[(robot_id_of environ, version) := 1%Z]> (robot_version reg) |}).
Proof.
  destruct r as [p1 p2 | p | p]; simpl.
  - destruct (update_metrics_cases lower_unicode environ p2
                (with_robot_requests_total
                   (counter_inc (lit "index", robot_id_of environ)) reg))
      as (v & s & Hv & Hs & Hu).
    eexists _, v, s. split; [exact Hv |]. split; [exact Hs |].
    unfold index, mbind, Py_bind, modify, lift. cbv beta iota.
    rewrite (get_app_version_cases environ p1),
      (get_container_status_cases p1), Hu.
    reflexivity.
  - destruct (update_metrics_cases lower_unicode environ p
                (with_robot_requests_total
                   (counter_inc (lit "health", robot_id_of environ)) reg))
      as (v & s & Hv & Hs & Hu).
    eexists _, v, s. split; [exact Hv |]. split; [exact Hs |].
    unfold health, mbind, Py_bind, modify. cbv beta iota.
    rewrite Hu. reflexivity.
  - destruct (update_metrics_cases lower_unicode environ p
                (with_robot_requests_total
                   (counter_inc (lit "metrics", robot_id_of environ)) reg))
      as (v & s & Hv & Hs & Hu).
    unfold metrics, mbind, Py_bind, modify, snapshot, lift. cbv beta iota.
    rewrite Hu. cbv beta iota.
    destruct (generate_latest _); eexists _, v, s;
      (split; [exact Hv |]); (split; [exact Hs |]); reflexivity.
Qed.

Lemma serve_cons (environ : gmap str str) (r : request) (rs : list request)
    (reg : Registry) :
  snd (serve lower_unicode environ (r :: rs) reg) =
  snd (serve lower_unicode environ rs
         (snd (dispatch lower_unicode environ r reg))).
Proof.
  simpl. destruct (dispatch lower_unicode environ r reg) as [answer reg'].
  simpl. destruct (serve lower_unicode environ rs reg'). reflexivity.
Qed.

Lemma serve_snoc (environ : gmap str str) (rs : list request) (r : request)
    (reg : Registry) :
  snd (serve lower_unicode environ (rs ++ [r]) reg) =
  snd (dispatch lower_unicode environ r
         (snd (serve lower_unicode environ rs reg))).
Proof.
  revert reg. induction rs as [| r' rs IH]; intros reg.
  - simpl. destruct (dispatch lower_unicode environ r reg). reflexivity.
  - rewrite <- app_comm_cons, !serve_cons. apply IH.
Qed.

Lemma counter_value_inc (k k' : str * str) (m : gmap (str * str) Z) :
  counter_value (counter_inc k m) k' =
  (counter_value m k' + if decide (k = k') then 1 else 0)%Z.
Proof.
  unfold counter_inc. unfold counter_value at 1.
  destruct (decide (k = k')) as [<- | Hne].
  - rewrite lookup_insert_eq. reflexivity.
  - rewrite lookup_insert_ne by exact Hne. unfold counter_value. lia.
Qed.

Lemma health_value_01 (status : str) :
  health_value lower_unicode status = 0%Z \/
  health_value lower_unicode status = 1%Z.
Proof. unfold health_value. case_bool_decide; auto. Qed.

(** X1: over a run of requests served by one process, the request counter
    child of an endpoint and the current robot id goes up by the number of
    requests to that endpoint. *)
Theorem serve_counts_requests
    (environ : gmap str str) (rs : list request) (reg : Registry) (ep : str) :
  counter_value
    (robot_requests_total (snd (serve lower_unicode environ rs reg)))
    (ep, robot_id_of environ)
  = (counter_value (robot_requests_total reg) (ep, robot_id_of environ)
     + Z.of_nat (requests_to ep rs))%Z.
Proof.
  revert reg. induction rs as [| r rs IH]; intros reg.
  - simpl. unfold requests_to. simpl. lia.
  - rewrite serve_cons, IH.
    destruct (dispatch_cases environ r reg) as (a & v & s & _ & _ & ->).
    cbn [snd robot_requests_total]. rewrite counter_value_inc.
    unfold requests_to. rewrite filter_cons.
    destruct (decide (endpoint r = ep)) as [-> | Hne].
    + rewrite decide_True by reflexivity. simpl length. lia.
    + rewrite decide_False by congruence. lia.
Qed.

(** X2: serving requests keeps the registry within its value ranges: info
    and version children stay at 1, health children at 0 or 1, and request
    counter children at 1 or more. *)
Theorem serve_keeps_value_ranges
    (environ : gmap str str) (rs : list request) (reg : Registry) :
  registry_wf reg ->
  registry_wf (snd (serve lower_unicode environ rs reg)).
Proof.
  revert reg. induction rs as [| r rs IH]; intros reg Hwf; [exact Hwf |].
  rewrite serve_cons. apply IH.
  destruct (dispatch_cases environ r reg) as (a & v & s & _ & _ & ->).
  destruct Hwf as (Hi & Hv & Hh & Hc).
  unfold registry_wf. cbn [snd robot_info robot_version robot_health_status
                           robot_requests_total].
  repeat split.
  - apply map_Forall_insert_2; [reflexivity | exact Hi].
  - apply map_Forall_insert_2; [reflexivity | exact Hv].
  - apply map_Forall_insert_2; [apply health_value_01 | exact Hh].
  - unfold counter_inc. apply map_Forall_insert_2; [| exact Hc].
    unfold counter_value.
    destruct (robot_requests_total reg !! (endpoint r, robot_id_of environ))
      as [c |] eqn:Hk; simpl; [| lia].
    specialize (Hc _ _ Hk). simpl in Hc. lia.
Qed.

(** X3: serving requests never removes a child from any of the four
    metrics, and never lowers a request counter child. *)
Theorem serve_never_removes
    (environ : gmap str str) (rs : list request) (reg : Registry) :
  dom (robot_info reg)
    ⊆ dom (robot_info (snd (serve lower_unicode environ rs reg))) /\
  dom (robot_version reg)
    ⊆ dom (robot_version (snd (serve lower_unicode environ rs reg))) /\
  dom (robot_health_status reg)
    ⊆ dom (robot_health_status (snd (serve lower_unicode environ rs reg))) /\
  dom (robot_requests_total reg)
    ⊆ dom (robot_requests_total (snd (serve lower_unicode environ rs reg))) /\
  forall k,
    (counter_value (robot_requests_total reg) k
     <= counter_value
          (robot_requests_total (snd (serve lower_unicode environ rs reg))) k)%Z.
Proof.
  revert reg. induction rs as [| r rs IH]; intros reg.
  - simpl. repeat split; reflexivity.
  - rewrite serve_cons.
    destruct (dispatch_cases environ r reg) as (a & v & s & _ & _ & Hd).
    rewrite Hd. cbn [snd].
    match goal with
    | |- context [serve _ _ rs ?reg1] =>
        destruct (IH reg1) as (Hi & Hv & Hh & Hc & Hle)
    end.
    cbn [robot_info robot_version robot_health_status
         robot_requests_total] in Hi, Hv, Hh, Hc, Hle.
    repeat split.
    + etrans; [apply dom_insert_subseteq | exact Hi].
    + etrans; [apply dom_insert_subseteq | exact Hv].
    + etrans; [apply dom_insert_subseteq | exact Hh].
    + etrans; [apply dom_insert_subseteq | exact Hc].
    + intros k. specialize (Hle k). rewrite counter_value_inc in Hle.
      destruct (decide ((endpoint r, robot_id_of environ) = k)); lia.
Qed.

(** X4: the only children serving requests adds carry the current robot
    id: the health metric gains at most the child of that id, the request
    counter at most the three children (index, id), (health, id) and
    (metrics, id), and every new info or version child has that id as its
    first label. *)
Theorem serve_adds_current_robot_only
    (environ : gmap str str) (rs : list request) (reg : Registry) :
  dom (robot_health_status (snd (serve lower_unicode environ rs reg)))
    ⊆ dom (robot_health_status reg) ∪ {[ robot_id_of environ ]} /\
  dom (robot_requests_total (snd (serve lower_unicode environ rs reg)))
    ⊆ dom (robot_requests_total reg)
      ∪ {[ (lit "index", robot_id_of environ);
           (lit "health", robot_id_of environ);
           (lit "metrics", robot_id_of environ) ]} /\
  (forall k,
      k ∈ dom (robot_info (snd (serve lower_unicode environ rs reg))) ->
      k ∈ dom (robot_info reg) \/ k.1.1 = robot_id_of environ) /\
  (forall k,
      k ∈ dom (robot_version (snd (serve lower_unicode environ rs reg))) ->
      k ∈ dom (robot_version reg) \/ k.1 = robot_id_of environ).
Proof.
  revert reg. induction rs as [| r rs IH]; intros reg.
  - simpl. repeat split; try (apply union_subseteq_l); auto.
  - rewrite serve_cons.
    destruct (dispatch_cases environ r reg) as (a & v & s & _ & _ & Hd).
    rewrite Hd. cbn [snd].
    match goal with
    | |- context [serve _ _ rs ?reg1] =>
        destruct (IH reg1) as (Hh & Hc & Hi & Hv)
    end.
    cbn [robot_info robot_version robot_health_status
         robot_requests_total] in Hh, Hc, Hi, Hv.
    unfold counter_inc in Hc. rewrite dom_insert_L in Hh.
    rewrite dom_insert_L in Hc.
    repeat split.
    + intros k Hk. apply Hh in Hk. clear - Hk.
      set_unfold. tauto.
    + intros k Hk. apply Hc in Hk. clear - Hk.
      set_unfold. destruct r; cbn [endpoint] in Hk; tauto.
    + intros k Hk. destruct (Hi k Hk) as [Hin | Hid]; [| right; exact Hid].
      rewrite dom_insert_L in Hin.
      apply elem_of_union in Hin as [Hin | Hin]; [| left; exact Hin].
      apply elem_of_singleton in Hin. subst k. right. reflexivity.
    + intros k Hk. destruct (Hv k Hk) as [Hin | Hid]; [| right; exact Hid].
      rewrite dom_insert_L in Hin.
      apply elem_of_union in Hin as [Hin | Hin]; [| left; exact Hin].
      apply elem_of_singleton in Hin. subst k. right. reflexivity.
Qed.

(** X5: [update_metrics] is idempotent: run again with the same answers
    from the outside world, it returns the same and leaves the registry as
    the first run left it (gauges are set, not accumulated). *)
Theorem update_metrics_idempotent
    (environ : gmap str str) (p : Probe) (reg : Registry) :
  update_metrics lower_unicode environ p
    (snd (update_metrics lower_unicode environ p reg))
  = update_metrics lower_unicode environ p reg.
Proof.
  destruct (update_metrics_cases lower_unicode environ p reg)
    as (v & s & Hv & Hs & Hu).
  rewrite Hu. cbn [snd].
  match goal with
  | |- update_metrics _ _ _ ?reg1 = _ =>
      destruct (update_metrics_cases lower_unicode environ p reg1)
        as (v' & s' & Hv' & Hs' & Hu')
  end.
  rewrite Hu'. rewrite Hv in Hv'. rewrite Hs in Hs'.
  injection Hv' as <-. injection Hs' as <-.
  cbn [robot_info robot_version robot_health_status robot_requests_total].
  rewrite !insert_insert_eq. reflexivity.
Qed.

(** X6: [index] resolves version and status twice. The page gets the
    values of the first round of look-ups; the info, version and health
    children set in the registry get the values of the second round. The
    two can disagree: when the marker file is there in the first round and
    gone in the second, the page says ["Healthy"] while the health child is
    set to 0. *)
Theorem index_page_and_metrics_two_rounds
    (environ : gmap str str) (p1 p2 : Probe) (reg : Registry) :
  exists v1 s1 v2 s2 reg',
    get_app_version environ p1 = Return v1 /\
    get_container_status p1 = Return s1 /\
    get_app_version environ p2 = Return v2 /\
    get_container_status p2 = Return s2 /\
    index lower_unicode environ p1 p2 reg =
    (Return (response_of_str
               (Rendered (lit "index.html")
                  (<[lit "id" := robot_id_of environ]>
                     (<[lit "version" := v1]> {[ lit "status" := s1 ]})))),
     reg') /\
    robot_info reg' =
      <[(robot_id_of environ, v2, s2) := 1%Z]> (robot_info reg) /\
    robot_version reg' =
      <[(robot_id_of environ, v2) := 1%Z]> (robot_version reg) /\
    robot_health_status reg' =
      <[robot_id_of environ :=
          if bool_decide (lower lower_unicode s2 = lit "healthy")
          then 1%Z else 0%Z]> (robot_health_status reg) /\
    (marker_present p1 -> ~ marker_present p2 ->
     s1 = lit "Healthy" /\
     robot_health_status reg' !! robot_id_of environ = Some 0%Z).
Proof.
  destruct (index_cases lower_unicode environ p1 p2 reg)
    as (v1 & s1 & r1 & Hv1 & Hs1 & Hi & _).
  destruct (dispatch_cases environ (GET_index p1 p2) reg)
    as (a & v2 & s2 & Hv2 & Hs2 & Hd).
  cbn [dispatch metrics_probe endpoint] in *.
  rewrite Hi in Hd. injection Hd as _ ->.
  exists v1, s1, v2, s2. eexists.
  split; [exact Hv1 |]. split; [exact Hs1 |].
  split; [exact Hv2 |]. split; [exact Hs2 |].
  split; [exact Hi |].
  cbn [robot_info robot_version robot_health_status].
  split; [reflexivity |]. split; [reflexivity |]. split; [reflexivity |].
  intros Hin Hout. unfold marker_present in Hin, Hout.
  rewrite get_container_status_cases in Hs1, Hs2.
  rewrite Hin in Hs1. injection Hs1 as <-. injection Hs2 as <-.
  split; [reflexivity |].
  rewrite lookup_insert_eq. unfold health_value.
  destruct (os_stat p2 (lit "/.dockerenv")); [contradiction Hout; reflexivity | |];
    rewrite bool_decide_eq_false_2 by apply lower_Running; reflexivity.
Qed.

(** X7: when both rounds of look-ups of [index] get the same answers, the
    id, version and status on the page are the labels of an info child and
    of a version child that hold 1 afterwards. *)
Theorem index_page_matches_metrics
    (environ : gmap str str) (p : Probe) (reg : Registry) :
  exists version status reg',
    index lower_unicode environ p p reg =
    (Return (response_of_str
               (Rendered (lit "index.html")
                  (<[lit "id" := robot_id_of environ]>
                     (<[lit "version" := version]>
                        {[ lit "status" := status ]})))),
     reg') /\
    robot_info reg' !! (robot_id_of environ, version, status) = Some 1%Z /\
    robot_version reg' !! (robot_id_of environ, version) = Some 1%Z.
Proof.
  destruct (index_cases lower_unicode environ p p reg)
    as (v & s & r1 & Hv & Hs & Hi & _).
  destruct (dispatch_cases environ (GET_index p p) reg)
    as (a & v' & s' & Hv' & Hs' & Hd).
  cbn [dispatch metrics_probe endpoint] in *.
  rewrite Hv in Hv'. rewrite Hs in Hs'.
  injection Hv' as <-. injection Hs' as <-.
  rewrite Hi in Hd. injection Hd as _ ->.
  exists v, s. eexists. split; [exact Hi |].
  cbn [robot_info robot_version]. split; apply lookup_insert_eq.
Qed.

Lemma serve_keeps_nonempty
    (environ : gmap str str) (rs : list request) (reg : Registry) :
  robot_info reg <> ∅ -> robot_version reg <> ∅ ->
  robot_health_status reg <> ∅ -> robot_requests_total reg <> ∅ ->
  robot_info (snd (serve lower_unicode environ rs reg)) <> ∅ /\
  robot_version (snd (serve lower_unicode environ rs reg)) <> ∅ /\
  robot_health_status (snd (serve lower_unicode environ rs reg)) <> ∅ /\
  robot_requests_total (snd (serve lower_unicode environ rs reg)) <> ∅.
Proof.
  revert reg. induction rs as [| r rs IH]; intros reg Hi Hv Hh Hc;
    [simpl; auto |].
  rewrite serve_cons.
  destruct (dispatch_cases environ r reg) as (a & v & s & _ & _ & ->).
  apply IH; cbn [snd robot_info robot_version robot_health_status
                 robot_requests_total];
    apply insert_non_empty.
Qed.

(** X8: once one request has been served, whatever it was and whatever
    follows, each of the four metrics has at least one child. *)
Theorem every_metric_has_a_child
    (environ : gmap str str) (r : request) (rs : list request)
    (reg : Registry) :
  robot_info (snd (serve lower_unicode environ (r :: rs) reg)) <> ∅ /\
  robot_version (snd (serve lower_unicode environ (r :: rs) reg)) <> ∅ /\
  robot_health_status (snd (serve lower_unicode environ (r :: rs) reg)) <> ∅ /\
  robot_requests_total (snd (serve lower_unicode environ (r :: rs) reg)) <> ∅.
Proof.
  rewrite serve_cons.
  destruct (dispatch_cases environ r reg) as (a & v & s & _ & _ & ->).
  apply serve_keeps_nonempty;
    cbn [snd robot_info robot_version robot_health_status
         robot_requests_total];
    apply insert_non_empty.
Qed.

(** X9: when a request to [/metrics] returns an exposition, it is taken
    after the request's own updates: it is the registry the request leaves
    behind, in which the [metrics] counter child already counts this request
    and the info, version and health children of the values resolved for
    this request are set. *)
Theorem metrics_exposes_own_request
    (environ : gmap str str) (p : Probe) (reg : Registry) (r : Response) :
  fst (metrics lower_unicode environ p reg) = Return r ->
  exists version status,
    get_app_version environ p = Return version /\
    get_container_status p = Return status /\
    body r = Exposition (snd (metrics lower_unicode environ p reg)) /\
    counter_value
      (robot_requests_total (snd (metrics lower_unicode environ p reg)))
      (lit "metrics", robot_id_of environ)
    = (counter_value (robot_requests_total reg)
         (lit "metrics", robot_id_of environ) + 1)%Z /\
    robot_info (snd (metrics lower_unicode environ p reg))
      !! (robot_id_of environ, version, status) = Some 1%Z /\
    robot_version (snd (metrics lower_unicode environ p reg))
      !! (robot_id_of environ, version) = Some 1%Z /\
    robot_health_status (snd (metrics lower_unicode environ p reg))
      !! robot_id_of environ =
      Some (if bool_decide (lower lower_unicode status = lit "healthy")
            then 1%Z else 0%Z).
Proof.
  destruct (metrics_cases lower_unicode environ p reg) as (reg' & Hm & _).
  destruct (dispatch_cases environ (GET_metrics p) reg)
    as (a & v & s & Hv & Hs & Hd).
  cbn [dispatch metrics_probe endpoint] in *.
  rewrite Hm in Hd. injection Hd as _ Hreg. clear a.
  rewrite Hm. cbn [fst snd]. intros Hr.
  exists v, s. split; [exact Hv |]. split; [exact Hs |]. split.
  - destruct (decide (registry_encodable reg')); [| discriminate Hr].
    injection Hr as <-. reflexivity.
  - rewrite Hreg.
    cbn [robot_info robot_version robot_health_status robot_requests_total].
    split.
    + rewrite counter_value_inc, decide_True by reflexivity. reflexivity.
    + repeat split; apply lookup_insert_eq.
Qed.

(** X10: the health child of the current robot id follows the last request
    served: after a run of requests it is 1 when the marker file was there
    during that last request's metrics update, and 0 when it was not. *)
Theorem health_series_follows_last_request
    (environ : gmap str str) (rs : list request) (r : request)
    (reg : Registry) :
  robot_health_status (snd (serve lower_unicode environ (rs ++ [r]) reg))
    !! robot_id_of environ
  = Some (match os_stat (metrics_probe r) (lit "/.dockerenv") with
          | StatOk => 1%Z
          | _ => 0%Z
          end).
Proof.
  rewrite serve_snoc.
  destruct (dispatch_cases environ r
              (snd (serve lower_unicode environ rs reg)))
    as (a & v & s & _ & Hs & ->).
  cbn [snd robot_health_status]. rewrite lookup_insert_eq.
  rewrite get_container_status_cases in Hs. injection Hs as <-.
  unfold health_value.
  destruct (os_stat (metrics_probe r) (lit "/.dockerenv")).
  - rewrite bool_decide_eq_true_2 by apply lower_Healthy. reflexivity.
  - rewrite bool_decide_eq_false_2 by apply lower_Running. reflexivity.
  - rewrite bool_decide_eq_false_2 by apply lower_Running. reflexivity.
Qed.

End ServingProperties.

(** ** The resolvers, further properties *)

Lemma lstrip_fixed (s : str) :
  (forall c, head s = Some c -> isspace c = false) -> lstrip s = s.
Proof.
  destruct s as [| c s]; [reflexivity |].
  intros H. simpl. rewrite (H c eq_refl). reflexivity.
Qed.

(** X11: [strip] is idempotent: stripping a stripped string changes
    nothing. *)
Theorem strip_idempotent (s : str) : strip (strip s) = strip s.
Proof.
  unfold strip at 1. rewrite (lstrip_fixed (strip s)) by apply strip_head.
  unfold rstrip. rewrite lstrip_fixed.
  - apply reverse_involutive.
  - intros c Hc. rewrite head_reverse in Hc.
    apply (strip_last s). exact Hc.
Qed.

(** X12: [get_app_version] returns the empty string only when
    [APP_VERSION] is set to the empty string: the tool's output is used
    only when it is not empty once stripped, and the default is not
    empty. *)
Theorem empty_version_only_from_environment
    (environ : gmap str str) (p : Probe) :
  get_app_version environ p = Return [] ->
  environ !! lit "APP_VERSION" = Some [].
Proof.
  rewrite get_app_version_cases. intros [= H]. revert H.
  assert (Hfb : version_fallback environ = [] ->
                environ !! lit "APP_VERSION" = Some []).
  { unfold version_fallback.
    destruct (environ !! lit "APP_VERSION") as [v |];
      [intros ->; reflexivity | intros H; vm_compute in H; discriminate H]. }
  destruct (subprocess_run p (docker_argv environ)) as [rc out | e];
    [| exact Hfb].
  destruct (bool_decide (rc = 0%Z) && truthy (strip out)) eqn:Hc;
    [| exact Hfb].
  apply andb_true_iff in Hc as [_ Hc]. intros H. rewrite H in Hc.
  discriminate Hc.
Qed.

(** X2 from the registry of a fresh process. *)
Lemma serve_keeps_value_ranges_witness :
  registry_wf empty_registry /\
  registry_wf
    (snd (serve caseless environ_robot7
            [GET_health probe_host; GET_metrics probe_container]
            empty_registry)).
Proof.
  assert (H : registry_wf empty_registry)
    by (repeat split; apply map_Forall_empty).
  split; [exact H |].
  exact (serve_keeps_value_ranges caseless environ_robot7
           [GET_health probe_host; GET_metrics probe_container]
           empty_registry H).
Defined.

(** X12 on a host without the tool, with [APP_VERSION] set to the empty
    string. *)
Lemma empty_version_only_from_environment_witness :
  get_app_version {[ lit "APP_VERSION" := [] ]} probe_host = Return [] /\
  ({[ lit "APP_VERSION" := [] ]} : gmap str str) !! lit "APP_VERSION"
    = Some [].
Proof.
  assert (H : get_app_version {[ lit "APP_VERSION" := [] ]} probe_host
              = Return []) by reflexivity.
  split; [exact H |].
  exact (empty_version_only_from_environment
           {[ lit "APP_VERSION" := [] ]} probe_host H).
Defined.

(** ** Serialisation at concrete inputs *)





(** X6 with the marker file there for the page and gone for the metrics. *)
Lemma index_page_and_metrics_two_rounds_witness :
  exists reg',
    index caseless environ_robot7 probe_container probe_host empty_registry =
    (Return (response_of_str
               (Rendered (lit "index.html")
                  (<[lit "id" := lit "7"]>
                     (<[lit "version" := lit "1.2.3"]>
                        {[ lit "status" := lit "Healthy" ]})))),
     reg') /\
    robot_health_status reg' !! lit "7" = Some 0%Z /\
    robot_info reg'
      !! (lit "7", lit "2.5.0", lit "Running (not containerized)")
    = Some 1%Z.
Proof.
  destruct (index_page_and_metrics_two_rounds caseless environ_robot7
              probe_container probe_host empty_registry)
    as (v1 & s1 & v2 & s2 & reg' & Hv1 & Hs1 & Hv2 & Hs2 & Hi & Hinfo
        & _ & _ & Hdis).
  assert (Hin : marker_present probe_container) by reflexivity.
  assert (Hout : ~ marker_present probe_host) by (intros H; discriminate H).
  destruct (Hdis Hin Hout) as (_ & Hh).
  injection Hv1 as <-. injection Hs1 as <-.
  injection Hv2 as <-. injection Hs2 as <-.
  exists reg'. split; [exact Hi |]. split; [exact Hh |].
  rewrite Hinfo. apply lookup_insert_eq.
Defined.

(** X9 inside a container with a version label. *)
Lemma metrics_exposes_own_request_witness :
  exists r,
    fst (metrics caseless environ_robot7 probe_container empty_registry)
      = Return r /\
    body r =
      Exposition
        (snd (metrics caseless environ_robot7 probe_container
                empty_registry)) /\
    counter_value
      (robot_requests_total
         (snd (metrics caseless environ_robot7 probe_container
                 empty_registry)))
      (lit "metrics", lit "7") = 1%Z.
Proof.
  eexists. split; [vm_compute; reflexivity |].
  match goal with
  | |- body ?r = _ /\ _ =>
      destruct (metrics_exposes_own_request caseless environ_robot7
                  probe_container empty_registry r eq_refl)
        as (v & s & _ & _ & Hb & Hc & _)
  end.
  split; [exact Hb | exact Hc].
Defined.

(** ** Labels that cannot be encoded *)

Lemma map_Forall_key_insert `{Countable K} (P : K -> Prop)
    (m : gmap K Z) (i : K) (x : Z) :
  map_Forall (fun k _ => P k) (<[i := x]> m) ->
  map_Forall (fun k _ => P k) m.
Proof.
  intros Hall j y Hj. destruct (decide (i = j)) as [<- | Hne].
  - apply (Hall i x). apply lookup_insert_eq.
  - apply (Hall j y). rewrite lookup_insert_ne by exact Hne. exact Hj.
Qed.

Section Undecodable.

Variable lower_unicode : N -> list N.

Lemma registry_encodable_before
    (environ : gmap str str) (r : request) (reg : Registry) :
  registry_encodable (snd (dispatch lower_unicode environ r reg)) ->
  registry_encodable reg.
Proof.
  destruct (dispatch_cases lower_unicode environ r reg)
    as (a & v & s & _ & _ & ->).
  unfold registry_encodable, counter_inc.
  cbn [snd robot_info robot_version robot_health_status
       robot_requests_total].
  intros (Hi & Hh & Hc & Hv).
  split; [| split; [| split]].
  - exact (map_Forall_key_insert
             (fun k => encodable k.1.1 = true /\ encodable k.1.2 = true
                       /\ encodable k.2 = true) _ _ _ Hi).
  - exact (map_Forall_key_insert (fun k => encodable k = true) _ _ _ Hh).
  - exact (map_Forall_key_insert
             (fun k => encodable k.1 = true /\ encodable k.2 = true)
             _ _ _ Hc).
  - exact (map_Forall_key_insert
             (fun k => encodable k.1 = true /\ encodable k.2 = true)
             _ _ _ Hv).
Qed.

Lemma serve_keeps_undecodable
    (environ : gmap str str) (rs : list request) (reg : Registry) :
  ~ registry_encodable reg ->
  ~ registry_encodable (snd (serve lower_unicode environ rs reg)).
Proof.
  revert reg. induction rs as [| r rs IH]; intros reg Hbad; [exact Hbad |].
  rewrite serve_cons. apply IH. intros Henc. apply Hbad.
  apply (registry_encodable_before environ r). exact Henc.
Qed.

(** X13: a label value that cannot be encoded stays in the registry: once
    the registry holds one, every later request to [/metrics] in that
    process is answered 500, whatever requests come in between. *)
Theorem undecodable_label_breaks_metrics_for_good
    (environ : gmap str str) (rs : list request) (p : Probe)
    (reg : Registry) :
  ~ registry_encodable reg ->
  fst (metrics lower_unicode environ p
         (snd (serve lower_unicode environ rs reg)))
    = Raise UnicodeEncodeError /\
  http_status
    (fst (metrics lower_unicode environ p
            (snd (serve lower_unicode environ rs reg))))
    = 500%Z.
Proof.
  intros Hbad.
  pose proof (serve_keeps_undecodable environ rs reg Hbad) as Hbad'.
  pose proof (registry_encodable_before environ (GET_metrics p)
                (snd (serve lower_unicode environ rs reg))) as Hstep.
  cbn [dispatch] in Hstep.
  destruct (metrics_cases lower_unicode environ p
              (snd (serve lower_unicode environ rs reg)))
    as (reg' & Hm & _).
  rewrite Hm in Hstep |- *. cbn [fst snd] in Hstep |- *.
  rewrite decide_False by (intros Henc; apply Hbad', Hstep, Henc).
  split; reflexivity.
Qed.

End Undecodable.

(** X13 after a health request made with [APP_VERSION] holding a byte that
    is not valid UTF-8, then a request to the index page. *)
Lemma undecodable_label_breaks_metrics_for_good_witness :
  ~ registry_encodable
      (snd (health caseless environ_undecodable probe_host empty_registry)) /\
  http_status
    (fst (metrics caseless environ_robot7 probe_container
            (snd (serve caseless environ_robot7
                    [GET_index probe_container probe_container]
                    (snd (health caseless environ_undecodable probe_host
                            empty_registry))))))
    = 500%Z.
Proof.
  assert (Hbad : ~ registry_encodable
                     (snd (health caseless environ_undecodable probe_host
                             empty_registry)))
    by (apply (bool_decide_eq_false _); vm_compute; reflexivity).
  split; [exact Hbad |].
  exact (proj2 (undecodable_label_breaks_metrics_for_good caseless
                  environ_robot7 [GET_index probe_container probe_container]
                  probe_container _ Hbad)).
Defined.
